(** * go-govmomi-metrics: the metrics acquisition pipeline of [main.go]

    A shallow embedding of [main.go].  The program talks to a vSphere
    endpoint through govmomi; every remote call and every line written to
    standard output is recorded as an [event], and the remote side is a
    [Provider]: a state [W] together with one transition per library entry
    point the program calls.  [os.Exit] ends the process at once, so the
    program runs in a monad [Proc] whose results are either [Returned] or
    [Exited]; a deferred call runs when its function returns and does not
    run when the process exits. *)

From stdpp Require Import gmap strings list.
From Stdlib Require Import ZArith Lia.

Local Open Scope Z_scope.
Local Open Scope string_scope.
Local Open Scope list_scope.

(** ** Data of [vim25/types], [vim25/mo] and [net/url] used by the program *)

(** The text of a Go [error] as [%v] prints it. *)
Definition error : Type := string.

Inductive result (A : Type) : Type :=
| Ok (a : A)
| Err (e : error).
Arguments Ok {A} a.
Arguments Err {A} e.

Record ManagedObjectReference : Type := {
  mor_Type : string;
  mor_Value : string
}.

(** [types.PerfMetricId]; [CounterId] is an int32. *)
Record PerfMetricId : Type := {
  CounterId : Z;
  Instance : string
}.

(** [types.PerfMetricIntSeries] embeds [PerfMetricSeries] (the [Id]) and adds
    the int64 samples. *)
Record PerfMetricIntSeries : Type := {
  Id : PerfMetricId;
  Value : list Z
}.

(** [types.PerfMetricSeriesCSV] embeds [PerfMetricSeries] and carries the
    samples as one comma separated string. *)
Record PerfMetricSeriesCSV : Type := {
  csv_Id : PerfMetricId;
  csv_Value : string
}.

(** The dynamic types a [types.BasePerfMetricSeries] interface value can
    hold: a pointer to an integer series, to a CSV series, or to the bare
    base struct. *)
Inductive BasePerfMetricSeries : Type :=
| IntSeriesPtr (s : PerfMetricIntSeries)
| SeriesCSVPtr (s : PerfMetricSeriesCSV)
| SeriesPtr (id : PerfMetricId).

Record PerfSampleInfo : Type := {
  Timestamp : Z;
  Interval : Z
}.

Record PerfEntityMetric : Type := {
  Entity : ManagedObjectReference;
  SampleInfo : list PerfSampleInfo;
  em_Value : list BasePerfMetricSeries
}.

Record PerfEntityMetricCSV : Type := {
  emcsv_Entity : ManagedObjectReference;
  SampleInfoCSV : string;
  emcsv_Value : list PerfMetricSeriesCSV
}.

(** The dynamic types a [types.BasePerfEntityMetricBase] interface value can
    hold. *)
Inductive BasePerfEntityMetricBase : Type :=
| EntityMetricPtr (m : PerfEntityMetric)
| EntityMetricCSVPtr (m : PerfEntityMetricCSV)
| EntityMetricBasePtr (entity : ManagedObjectReference).

Record PerfQuerySpec : Type := {
  q_Entity : ManagedObjectReference;
  StartTime : option Z;
  EndTime : option Z;
  MaxSample : Z;
  MetricId : list PerfMetricId;
  IntervalId : Z;
  Format : string
}.

Record PerfCounterInfo : Type := {
  Key : Z;
  NameInfo : string;
  GroupInfo : string;
  UnitInfo : string;
  RollupType : string;
  StatsType : string;
  Level : Z
}.

(** [mo.VirtualMachine], with the reference and the one property the
    program retrieves. *)
Record VirtualMachine : Type := {
  Self : ManagedObjectReference;
  Name : string
}.

Definition Reference (vm : VirtualMachine) : ManagedObjectReference := Self vm.

Record URL : Type := {
  parsed : string;
  User : option (string * string)
}.

Definition UserPassword (user pass : string) : option (string * string) :=
  Some (user, pass).

Definition set_User (u : URL) (info : option (string * string)) : URL :=
  {| parsed := parsed u; User := info |}.

Record Client : Type := {
  client_URL : URL;
  RootFolder : ManagedObjectReference
}.

(** [view.ContainerView] is a handle on a server side object. *)
Definition ContainerView : Type := ManagedObjectReference.

Definition nl : string := String (Ascii.ascii_of_nat 10) EmptyString.

(** ** Events and the process monad *)

(** An operand of [fmt.Printf]. *)
Inductive arg : Type :=
| AStr (s : string)
| AErr (e : error)
| AInts (l : list Z).

Inductive event : Type :=
| Println (s : string)
| Printf (format : string) (args : list arg)
| CallNewClient (u : URL) (insecure : bool)
| CallCreateContainerView (root : ManagedObjectReference) (kind : list string)
    (recursive : bool)
| CallRetrieve (v : ContainerView) (kind props : list string)
| CallDestroy (v : ContainerView)
| CallCounterInfoByName
| CallQuery (specs : list PerfQuerySpec)
| CallCancel.

Inductive outcome (A : Type) : Type :=
| Returned (a : A)
| Exited (code : Z).
Arguments Returned {A} a.
Arguments Exited {A} code.

(** The exit status of the process when [main] ends with this outcome. *)
Definition exit_status {A : Type} (o : outcome A) : Z :=
  match o with
  | Returned _ => 0
  | Exited code => code
  end.

(** The remote endpoint and the process environment. *)
Record Provider (W : Type) : Type := {
  Getenv : string -> string;
  url_Parse : string -> result URL;
  NewClient : URL -> bool -> W -> result Client * W;
  CreateContainerView :
    Client -> ManagedObjectReference -> list string -> bool -> W ->
    result ContainerView * W;
  Retrieve :
    ContainerView -> list string -> list string -> W ->
    result (list VirtualMachine) * W;
  Destroy : ContainerView -> W -> option error * W;
  CounterInfoByName : Client -> W -> result (gmap string PerfCounterInfo) * W;
  Query :
    Client -> list PerfQuerySpec -> W ->
    result (list BasePerfEntityMetricBase) * W
}.
Arguments Getenv {W} _ _.
Arguments url_Parse {W} _ _.
Arguments NewClient {W} _ _ _ _.
Arguments CreateContainerView {W} _ _ _ _ _ _.
Arguments Retrieve {W} _ _ _ _ _.
Arguments Destroy {W} _ _ _.
Arguments CounterInfoByName {W} _ _ _.
Arguments Query {W} _ _ _ _.

Record Run (W A : Type) : Type := {
  trace : list event;
  world : W;
  res : outcome A
}.
Arguments trace {W A} _.
Arguments world {W A} _.
Arguments res {W A} _.

Definition Proc (W A : Type) : Type := W -> Run W A.

Definition ret {W A : Type} (a : A) : Proc W A :=
  fun w => {| trace := []; world := w; res := Returned a |}.

Definition bind {W A B : Type} (m : Proc W A) (k : A -> Proc W B) : Proc W B :=
  fun w =>
    let r := m w in
    match res r with
    | Returned a =>
        let r' := k a (world r) in
        {| trace := trace r ++ trace r'; world := world r'; res := res r' |}
    | Exited code => {| trace := trace r; world := world r; res := Exited code |}
    end.

Notation "x <- m ;; k" := (bind m (fun x => k))
  (at level 100, m at next level, right associativity).
Notation "m ;;; k" := (bind m (fun _ => k))
  (at level 100, right associativity).

Definition emit {W : Type} (e : event) : Proc W unit :=
  fun w => {| trace := [e]; world := w; res := Returned tt |}.

(** [os.Exit(code)]. *)
Definition os_Exit {W A : Type} (code : Z) : Proc W A :=
  fun w => {| trace := []; world := w; res := Exited code |}.

(** A library call: the call is recorded, the provider answers. *)
Definition call {W A : Type} (e : event) (f : W -> A * W) : Proc W A :=
  fun w => {| trace := [e]; world := (f w).2; res := Returned (f w).1 |}.

(** [defer d(); body]: [d] runs after [body] returns; when [body] ends the
    process with [os.Exit], [d] does not run. *)
Definition defer {W A B : Type} (d : Proc W B) (body : Proc W A) : Proc W A :=
  fun w =>
    let r := body w in
    match res r with
    | Returned a =>
        let r' := d (world r) in
        {| trace := trace r ++ trace r'; world := world r'; res := Returned a |}
    | Exited code => r
    end.

(** [for _, x := range xs { body }], where [continue] is the normal end of
    [body]. *)
Fixpoint for_range {W A : Type} (xs : list A) (body : A -> Proc W unit)
  : Proc W unit :=
  match xs with
  | [] => ret tt
  | x :: rest => body x ;;; for_range rest body
  end.

(** ** The messages of the program *)

Definition env_missing_message : string :=
  "Environment variables VCSA_SERVER, QA_VCENTER_USERNAME, and QA_VCENTER_PASSWORD must be set".
Definition url_error_format : string := "Error parsing URL: %v" +:+ nl.
Definition client_error_format : string :=
  "Error creating vSphere client: %v" +:+ nl.
Definition view_error_format : string :=
  "Error creating container view: %v" +:+ nl.
Definition retrieve_error_format : string :=
  "Error retrieving virtual machines: %v" +:+ nl.
Definition catalog_error_format : string :=
  "Error retrieving counter info: %v" +:+ nl.
Definition metric_missing_format : string := "Metric %s not found" +:+ nl.
Definition value_format : string := "VM: %s, CPU Usage (MHz): %v" +:+ nl.
Definition series_mismatch_format : string :=
  "Error asserting metric series type for VM %s" +:+ nl.
Definition metric_mismatch_format : string :=
  "Error asserting metric type for VM %s" +:+ nl.
Definition query_error_format : string :=
  "Error querying performance metrics for VM %s: %v" +:+ nl.

(** ** The program *)

Section Program.

Context {W : Type} (P : Provider W).

Definition readEnvVars : Proc W (string * string * string) :=
  let vc := Getenv P "VCSA_SERVER" in
  let user := Getenv P "QA_VCENTER_USERNAME" in
  let pass := Getenv P "QA_VCENTER_PASSWORD" in
  if String.eqb vc EmptyString || String.eqb user EmptyString
     || String.eqb pass EmptyString
  then
    (emit (Println env_missing_message) ;;;
     os_Exit 1)
  else ret (vc, user, pass).

Definition formatVCURL (vc : string) : string :=
  "https://" +:+ vc +:+ "/sdk".

Definition createVSphereClient (vcURL user pass : string) : Proc W Client :=
  match url_Parse P vcURL with
  | Err err =>
      (emit (Printf url_error_format [AErr err]) ;;; os_Exit 1)
  | Ok u =>
      let u := set_User u (UserPassword user pass) in
      (r <- call (CallNewClient u true) (NewClient P u true) ;;
       match r with
       | Err err =>
           (emit (Printf client_error_format [AErr err]) ;;;
            os_Exit 1)
       | Ok c => ret c
       end)
  end.

Definition retrieveVMs (client : Client) : Proc W (list VirtualMachine) :=
  r <- call (CallCreateContainerView (RootFolder client) ["VirtualMachine"] true)
         (CreateContainerView P client (RootFolder client) ["VirtualMachine"] true) ;;
  match r with
  | Err err =>
      (emit (Printf view_error_format [AErr err]) ;;;
       os_Exit 1)
  | Ok v =>
      defer (call (CallDestroy v) (Destroy P v))
        (r <- call (CallRetrieve v ["VirtualMachine"] ["name"])
                (Retrieve P v ["VirtualMachine"] ["name"]) ;;
         match r with
         | Err err =>
             (emit (Printf retrieve_error_format [AErr err]) ;;;
              os_Exit 1)
         | Ok vms => ret vms
         end)
  end.

Definition metricName : string := "cpu.usagemhz.average".

(** The query built for one virtual machine (lines 110-115); the fields the
    literal leaves out have their zero values. *)
Definition query_of (counter : PerfCounterInfo) (vm : VirtualMachine)
  : PerfQuerySpec :=
  {| q_Entity := Reference vm;
     StartTime := None;
     EndTime := None;
     MaxSample := 1;
     MetricId := [ {| CounterId := Key counter; Instance := EmptyString |} ];
     IntervalId := 20;
     Format := EmptyString |}.

(** Body of the loop over [metric.Value] (lines 130-140). *)
Definition series_body (vm : VirtualMachine) (counter : PerfCounterInfo)
    (value : BasePerfMetricSeries) : Proc W unit :=
  match value with
  | IntSeriesPtr series =>
      if Z.eqb (CounterId (Id series)) (Key counter)
      then emit (Printf value_format [AStr (Name vm); AInts (Value series)])
      else ret tt
  | _ => emit (Printf series_mismatch_format [AStr (Name vm)])
  end.

(** Body of the loop over [metrics] (lines 123-141). *)
Definition metric_body (vm : VirtualMachine) (counter : PerfCounterInfo)
    (baseMetric : BasePerfEntityMetricBase) : Proc W unit :=
  match baseMetric with
  | EntityMetricPtr metric => for_range (em_Value metric) (series_body vm counter)
  | _ => emit (Printf metric_mismatch_format [AStr (Name vm)])
  end.

(** The extraction step: the two nested loops over a query response. *)
Definition extract (vm : VirtualMachine) (counter : PerfCounterInfo)
    (metrics : list BasePerfEntityMetricBase) : Proc W unit :=
  for_range metrics (metric_body vm counter).

(** Body of the loop over [vms] (lines 109-142). *)
Definition vm_body (client : Client) (counter : PerfCounterInfo)
    (vm : VirtualMachine) : Proc W unit :=
  let query := query_of counter vm in
  r <- call (CallQuery [query]) (Query P client [query]) ;;
  match r with
  | Err err => emit (Printf query_error_format [AStr (Name vm); AErr err])
  | Ok metrics => extract vm counter metrics
  end.

Definition retrieveAndDisplayMetrics (client : Client)
    (vms : list VirtualMachine) : Proc W unit :=
  r <- call CallCounterInfoByName (CounterInfoByName P client) ;;
  match r with
  | Err err =>
      (emit (Printf catalog_error_format [AErr err]) ;;;
       os_Exit 1)
  | Ok counterInfo =>
      match counterInfo !! metricName with
      | None =>
          (emit (Printf metric_missing_format [AStr metricName]) ;;;
           os_Exit 1)
      | Some counter => for_range vms (vm_body client counter)
      end
  end.

Definition main : Proc W unit :=
  env <- readEnvVars ;;
  let '(vc, user, pass) := env in
  let vcURL := formatVCURL vc in
  defer (emit CallCancel)
    (client <- createVSphereClient vcURL user pass ;;
     vms <- retrieveVMs client ;;
     retrieveAndDisplayMetrics client vms).

End Program.

(** ** A scripted provider, for concrete runs

    The state counts the remote calls answered so far. *)

Record Script : Type := {
  s_env : string -> string;
  s_client : result Client;
  s_view : result ContainerView;
  s_vms : result (list VirtualMachine);
  s_catalog : result (gmap string PerfCounterInfo);
  s_query : list PerfQuerySpec -> result (list BasePerfEntityMetricBase)
}.

Definition scripted (s : Script) : Provider nat :=
  {| Getenv := s_env s;
     url_Parse := fun raw => Ok {| parsed := raw; User := None |};
     NewClient := fun _ _ n => (s_client s, S n);
     CreateContainerView := fun _ _ _ _ n => (s_view s, S n);
     Retrieve := fun _ _ _ n => (s_vms s, S n);
     Destroy := fun _ n => (None, S n);
     CounterInfoByName := fun _ n => (s_catalog s, S n);
     Query := fun _ specs n => (s_query s specs, S n) |}.

Definition vm_ref (id : string) : ManagedObjectReference :=
  {| mor_Type := "VirtualMachine"; mor_Value := id |}.

Definition web01 : VirtualMachine := {| Self := vm_ref "vm-1"; Name := "web-01" |}.
Definition db01 : VirtualMachine := {| Self := vm_ref "vm-2"; Name := "db-01" |}.

Definition cpu_counter (key : Z) : PerfCounterInfo :=
  {| Key := key; NameInfo := "usagemhz"; GroupInfo := "cpu";
     UnitInfo := "megaHertz"; RollupType := "average"; StatsType := "rate";
     Level := 1 |}.

Definition demo_client : Client :=
  {| client_URL := {| parsed := "https://vc/sdk"; User := Some ("u", "p") |};
     RootFolder := {| mor_Type := "Folder"; mor_Value := "group-d1" |} |}.

Definition demo_view : ContainerView :=
  {| mor_Type := "ContainerView"; mor_Value := "session[1]" |}.

Definition counter_id (key : Z) : PerfMetricId :=
  {| CounterId := key; Instance := EmptyString |}.

Definition int_series (key : Z) (vals : list Z) : BasePerfMetricSeries :=
  IntSeriesPtr {| Id := counter_id key; Value := vals |}.

Definition entity_metric (vm : VirtualMachine)
    (series : list BasePerfMetricSeries) : BasePerfEntityMetricBase :=
  EntityMetricPtr {| Entity := Self vm; SampleInfo := []; em_Value := series |}.

(** The end to end scenario of the specification: two machines, the counter
    has id 6, the query for web-01 answers one integer series with the value
    350 and the query for db-01 fails. *)
Definition e2e : Script :=
  {| s_env := fun _ => "x";
     s_client := Ok demo_client;
     s_view := Ok demo_view;
     s_vms := Ok [web01; db01];
     s_catalog := Ok {[ metricName := cpu_counter 6 ]};
     s_query := fun specs =>
       match specs with
       | [q] =>
           if String.eqb (mor_Value (q_Entity q)) "vm-1"
           then Ok [entity_metric web01 [int_series 6 [350]]]
           else Err "transport error"
       | _ => Err "unexpected"
       end |}.

Definition csv_series (key : Z) (text : string) : BasePerfMetricSeries :=
  SeriesCSVPtr {| csv_Id := counter_id key; csv_Value := text |}.


(** The inventory cannot be retrieved. *)
Definition retrieve_fails : Script :=
  {| s_env := s_env e2e;
     s_client := s_client e2e;
     s_view := s_view e2e;
     s_vms := Err "connection reset";
     s_catalog := s_catalog e2e;
     s_query := s_query e2e |}.

(** The catalog has no entry for the metric. *)
Definition metric_unknown : Script :=
  {| s_env := s_env e2e;
     s_client := s_client e2e;
     s_view := s_view e2e;
     s_vms := s_vms e2e;
     s_catalog := Ok ∅;
     s_query := s_query e2e |}.

(** ** Observations on traces and on query responses *)

Definition is_print (e : event) : bool :=
  match e with
  | Println _ | Printf _ _ => true
  | _ => false
  end.

(** What the process wrote to standard output. *)
Definition stdout (t : list event) : list event := List.filter is_print t.

(** The value sequence a line reports, when the line is a value line. *)
Definition surfaced_by (e : event) : option (string * list Z) :=
  match e with
  | Printf format [AStr name; AInts values] =>
      if String.eqb format value_format then Some (name, values) else None
  | _ => None
  end.

Definition surfaced (t : list event) : list (string * list Z) :=
  omap surfaced_by t.
Arguments surfaced_by : simpl never.

Definition is_catalog_fetch (e : event) : bool :=
  match e with CallCounterInfoByName => true | _ => false end.

Definition is_destroy (e : event) : bool :=
  match e with CallDestroy _ => true | _ => false end.

Definition query_specs (e : event) : option (list PerfQuerySpec) :=
  match e with CallQuery specs => Some specs | _ => None end.

(** The performance queries submitted during a run, in order. *)
Definition queries (t : list event) : list (list PerfQuerySpec) :=
  omap query_specs t.

Definition insecure_flag (e : event) : option bool :=
  match e with CallNewClient _ insecure => Some insecure | _ => None end.

(** Every line names the machine as its first operand. *)
Definition names_vm (vm : VirtualMachine) (e : event) : bool :=
  match e with
  | Printf _ (AStr name :: _) => String.eqb name (Name vm)
  | _ => false
  end.





Definition entity_metric_of (base : BasePerfEntityMetricBase)
  : option PerfEntityMetric :=
  match base with EntityMetricPtr m => Some m | _ => None end.

Definition int_series_of (value : BasePerfMetricSeries)
  : option PerfMetricIntSeries :=
  match value with IntSeriesPtr s => Some s | _ => None end.

Definition is_entity_metric (base : BasePerfEntityMetricBase) : bool :=
  match base with EntityMetricPtr _ => true | _ => false end.

Definition is_int_series (value : BasePerfMetricSeries) : bool :=
  match value with IntSeriesPtr _ => true | _ => false end.

(** The integer series with the requested counter id that sit in an
    entity-metric envelope. *)
Definition matching_int_series (key : Z)
    (metrics : list BasePerfEntityMetricBase) : list PerfMetricIntSeries :=
  List.filter (fun s => Z.eqb (CounterId (Id s)) key)
    (omap int_series_of (flat_map em_Value (omap entity_metric_of metrics))).

(** The envelopes that are not entity metrics, and the series of entity
    metrics that are not integer series. *)
Definition mismatches (metrics : list BasePerfEntityMetricBase) : nat :=
  (length (List.filter (fun b => negb (is_entity_metric b)) metrics)
   + length (List.filter (fun v => negb (is_int_series v))
               (flat_map em_Value (omap entity_metric_of metrics))))%nat.

(** The integer series the extraction step prints: those with the requested
    counter id. *)
Definition wanted (counter : PerfCounterInfo) (s : PerfMetricIntSeries) : bool :=
  Z.eqb (CounterId (Id s)) (Key counter).

(** A line of standard output whose first operand is the machine's name. *)
Definition vm_line (vm : VirtualMachine) (e : event) : Prop :=
  is_print e = true /\ names_vm vm e = true.

(** Events of the stages before the metrics stage: no catalog fetch and no
    query. *)
Definition startup_event (e : event) : Prop :=
  match e with
  | CallCounterInfoByName | CallQuery _ => False
  | _ => True
  end.

(** A session is only ever opened with the insecure flag set. *)
Definition insecure_session (e : event) : Prop :=
  match e with
  | CallNewClient _ insecure => insecure = true
  | _ => True
  end.

(** Events of the per-machine loop: queries and lines. *)
Definition loop_event (e : event) : Prop :=
  match e with
  | CallQuery _ | Printf _ _ => True
  | _ => False
  end.


(** ** Further observations, for the stages around the claims *)

Definition is_session_open (e : event) : bool :=
  match e with CallNewClient _ _ => true | _ => false end.

Definition is_create_view (e : event) : bool :=
  match e with CallCreateContainerView _ _ _ => true | _ => false end.

Definition is_retrieve (e : event) : bool :=
  match e with CallRetrieve _ _ _ => true | _ => false end.

Definition is_cancel (e : event) : bool :=
  match e with CallCancel => true | _ => false end.

(** How often events of one kind occur in a trace. *)
Definition occurrences (f : event -> bool) (t : list event) : nat :=
  length (List.filter f t).

(** The events each stage may produce. *)
Definition env_event (e : event) : Prop :=
  match e with Println _ => True | _ => False end.

Definition session_event (e : event) : Prop :=
  match e with
  | Printf _ _ | CallNewClient _ _ => True
  | _ => False
  end.

Definition inventory_event (e : event) : Prop :=
  match e with
  | Printf _ _ | CallCreateContainerView _ _ _ | CallRetrieve _ _ _
  | CallDestroy _ => True
  | _ => False
  end.

Definition performance_event (e : event) : Prop :=
  match e with
  | Printf _ _ | CallCounterInfoByName | CallQuery _ => True
  | _ => False
  end.

(** Events that may follow the first call to the performance manager: no
    session, view, retrieval or destroy call. *)
Definition metrics_event (e : event) : Prop :=
  match e with
  | CallNewClient _ _ | CallCreateContainerView _ _ _ | CallRetrieve _ _ _
  | CallDestroy _ => False
  | _ => True
  end.

(** The password is not set in the process environment. *)
Definition password_missing : Script :=
  {| s_env := fun name =>
       if String.eqb name "QA_VCENTER_PASSWORD" then EmptyString else "x";
     s_client := s_client e2e;
     s_view := s_view e2e;
     s_vms := s_vms e2e;
     s_catalog := s_catalog e2e;
     s_query := s_query e2e |}.

(** The endpoint rejects the credentials. *)
Definition login_fails : Script :=
  {| s_env := s_env e2e;
     s_client := Err "incorrect user name or password";
     s_view := s_view e2e;
     s_vms := s_vms e2e;
     s_catalog := s_catalog e2e;
     s_query := s_query e2e |}.

(** The counter catalog cannot be fetched. *)
Definition catalog_fails : Script :=
  {| s_env := s_env e2e;
     s_client := s_client e2e;
     s_view := s_view e2e;
     s_vms := s_vms e2e;
     s_catalog := Err "permission denied";
     s_query := s_query e2e |}.

(** ** Laws of the process monad *)

Section Laws.

Context {W : Type}.

Lemma run_eta {A : Type} (r : Run W A) :
  {| trace := trace r; world := world r; res := res r |} = r.
Proof. by destruct r. Qed.

Lemma bind_returned {A B : Type} (m : Proc W A) (k : A -> Proc W B) w a :
  res (m w) = Returned a ->
  bind m k w =
    {| trace := trace (m w) ++ trace (k a (world (m w)));
       world := world (k a (world (m w)));
       res := res (k a (world (m w))) |}.
Proof. intros H. unfold bind. by rewrite H. Qed.

Lemma bind_exited {A B : Type} (m : Proc W A) (k : A -> Proc W B) w code :
  res (m w) = Exited code ->
  bind m k w = {| trace := trace (m w); world := world (m w); res := Exited code |}.
Proof. intros H. unfold bind. by rewrite H. Qed.

Lemma bind_ret_l {A B : Type} (a : A) (k : A -> Proc W B) w :
  bind (ret a) k w = k a w.
Proof. unfold bind, ret. simpl. apply run_eta. Qed.

Lemma bind_assoc {A B C : Type} (m : Proc W A) (f : A -> Proc W B)
    (g : B -> Proc W C) w :
  bind (bind m f) g w = bind m (fun x => bind (f x) g) w.
Proof.
  unfold bind. destruct (res (m w)) as [a|code] eqn:Hm; simpl; [|done].
  destruct (res (f a (world (m w)))) as [b|code] eqn:Hf; simpl; [|done].
  by rewrite app_assoc.
Qed.

Lemma for_range_app {A : Type} (l1 l2 : list A) (body : A -> Proc W unit) w :
  for_range (l1 ++ l2) body w
  = bind (for_range l1 body) (fun _ => for_range l2 body) w.
Proof.
  revert w. induction l1 as [|x l1 IH]; intros w; simpl.
  - by rewrite bind_ret_l.
  - rewrite bind_assoc.
    destruct (res (body x w)) as [a|code] eqn:Hb.
    + rewrite !(bind_returned _ _ _ a) by done. by rewrite IH.
    + by rewrite !(bind_exited _ _ _ code).
Qed.

(** A loop whose body always returns runs every iteration and returns. *)
Lemma for_range_returns {A : Type} (l : list A) (body : A -> Proc W unit) w :
  (forall x w', res (body x w') = Returned tt) ->
  res (for_range l body w) = Returned tt.
Proof.
  intros Hbody. revert w. induction l as [|x l IH]; intros w; simpl; [done|].
  rewrite (bind_returned _ _ _ tt) by apply Hbody. simpl. apply IH.
Qed.

Lemma for_range_split {A : Type} (pre : list A) (x : A) (post : list A)
    (body : A -> Proc W unit) w :
  (forall y w', res (body y w') = Returned tt) ->
  let r_pre := for_range pre body w in
  let r_x := body x (world r_pre) in
  let r_post := for_range post body (world r_x) in
  for_range (pre ++ x :: post) body w
  = {| trace := trace r_pre ++ trace r_x ++ trace r_post;
       world := world r_post;
       res := Returned tt |}.
Proof.
  intros Hbody. simpl. rewrite for_range_app.
  rewrite (bind_returned _ _ _ tt) by by apply for_range_returns.
  simpl. rewrite (bind_returned _ _ _ tt) by apply Hbody. simpl.
  by rewrite for_range_returns.
Qed.

End Laws.

(** ** The extraction step *)

Section Extraction.

Context {W : Type} (vm : VirtualMachine)
  (counter : PerfCounterInfo).

Lemma surfaced_value name values :
  surfaced_by (Printf value_format [AStr name; AInts values]) = Some (name, values).
Proof. unfold surfaced_by. by rewrite String.eqb_refl. Qed.

Lemma surfaced_one_operand format a : surfaced_by (Printf format [a]) = None.
Proof. unfold surfaced_by. by destruct a. Qed.

Lemma vm_line_Printf format rest : vm_line vm (Printf format (AStr (Name vm) :: rest)).
Proof. split; [done|]. simpl. apply String.eqb_refl. Qed.

Lemma series_body_run value w :
  series_body (W:=W) vm counter value w
  = {| trace :=
         match int_series_of value with
         | Some s =>
             if wanted counter s
             then [Printf value_format [AStr (Name vm); AInts (Value s)]]
             else []
         | None => [Printf series_mismatch_format [AStr (Name vm)]]
         end;
       world := w;
       res := Returned tt |}.
Proof.
  destruct value as [s| |]; simpl; try done.
  unfold wanted. by destruct (Z.eqb _ _).
Qed.

Lemma series_body_res value w :
  res (series_body (W:=W) vm counter value w) = Returned tt.
Proof. by rewrite series_body_run. Qed.

Lemma series_loop_res values w :
  res (for_range values (series_body (W:=W) vm counter) w) = Returned tt.
Proof. apply for_range_returns. intros. apply series_body_res. Qed.

Lemma series_loop_spec (values : list BasePerfMetricSeries) w :
  let r := for_range values (series_body (W:=W) vm counter) w in
  world r = w
  /\ surfaced (trace r)
     = map (fun s => (Name vm, Value s))
         (List.filter (wanted counter) (omap int_series_of values))
  /\ length (trace r)
     = (length (List.filter (wanted counter) (omap int_series_of values))
        + length (List.filter (fun v => negb (is_int_series v)) values))%nat
  /\ Forall (vm_line vm) (trace r).
Proof.
  revert w. induction values as [|value values IH]; intros w; simpl.
  - repeat split; constructor.
  - rewrite (bind_returned _ _ _ tt) by apply series_body_res.
    rewrite series_body_run. simpl.
    destruct (IH w) as (Hw & Hs & Hl & Hf).
    unfold surfaced in *. rewrite omap_app, length_app, Forall_app, Hw, Hs, Hl.
    destruct value as [s| |]; simpl.
    + destruct (wanted counter s) eqn:Hwanted; simpl.
      * rewrite ?surfaced_value. repeat split; try done.
        apply Forall_singleton, vm_line_Printf.
      * repeat split; try done.
    + rewrite ?surfaced_one_operand. repeat split; try done.
      apply Forall_singleton, vm_line_Printf.
    + rewrite ?surfaced_one_operand. repeat split; try done.
      apply Forall_singleton, vm_line_Printf.
Qed.

Lemma metric_body_res base w :
  res (metric_body (W:=W) vm counter base w) = Returned tt.
Proof. destruct base; simpl; try done. apply series_loop_res. Qed.

Lemma extract_res metrics w : res (extract (W:=W) vm counter metrics w) = Returned tt.
Proof. apply for_range_returns. intros. apply metric_body_res. Qed.

Lemma extract_spec (metrics : list BasePerfEntityMetricBase) w :
  let r := extract (W:=W) vm counter metrics w in
  world r = w
  /\ surfaced (trace r)
     = map (fun s => (Name vm, Value s)) (matching_int_series (Key counter) metrics)
  /\ length (trace r)
     = (length (matching_int_series (Key counter) metrics) + mismatches metrics)%nat
  /\ Forall (vm_line vm) (trace r).
Proof.
  unfold extract, matching_int_series, mismatches. fold (wanted counter).
  revert w. induction metrics as [|base metrics IH]; intros w.
  - repeat split; constructor.
  - cbn [for_range]. rewrite (bind_returned _ _ _ tt) by apply metric_body_res.
    cbn [trace world res].
    destruct base as [m| |]; cbn [metric_body omap list_omap entity_metric_of
      flat_map List.filter is_entity_metric negb length].
    + destruct (series_loop_spec (em_Value m) w) as (Hw' & Hs' & Hl' & Hf').
      cbn zeta in Hw', Hs', Hl', Hf'. rewrite Hw'.
      destruct (IH w) as (Hw & Hs & Hl & Hf).
      unfold surfaced in *.
      rewrite !omap_app, !List.filter_app, map_app, !length_app, Forall_app.
      rewrite Hs', Hl', Hs, Hl, Hw. repeat split; try done. lia.
    + destruct (IH w) as (Hw & Hs & Hl & Hf). unfold surfaced in *.
      cbn [emit trace world app length]. rewrite Forall_cons.
      change (omap surfaced_by (?e :: ?t)) with
        (match surfaced_by e with Some y => y :: omap surfaced_by t
                             | None => omap surfaced_by t end).
      rewrite surfaced_one_operand, Hs, Hl, Hw.
      repeat split; try done. apply String.eqb_refl.
    + destruct (IH w) as (Hw & Hs & Hl & Hf). unfold surfaced in *.
      cbn [emit trace world app length]. rewrite Forall_cons.
      change (omap surfaced_by (?e :: ?t)) with
        (match surfaced_by e with Some y => y :: omap surfaced_by t
                             | None => omap surfaced_by t end).
      rewrite surfaced_one_operand, Hs, Hl, Hw.
      repeat split; try done. apply String.eqb_refl.
Qed.

End Extraction.

(** ** Properties of every event of a run *)

Section TraceInvariants.

Context {W : Type} (Q : event -> Prop).

Lemma Forall_trace_ret {A : Type} (a : A) (w : W) : Forall Q (trace (ret a w)).
Proof. constructor. Qed.

Lemma Forall_trace_os_Exit {A : Type} code (w : W) :
  Forall Q (trace (os_Exit (A:=A) code w)).
Proof. constructor. Qed.

Lemma Forall_trace_emit e (w : W) : Q e -> Forall Q (trace (emit e w)).
Proof. intros. by apply Forall_singleton. Qed.

Lemma Forall_trace_call {A : Type} e (f : W -> A * W) w :
  Q e -> Forall Q (trace (call e f w)).
Proof. intros. by apply Forall_singleton. Qed.

Lemma Forall_trace_bind {A B : Type} (m : Proc W A) (k : A -> Proc W B) w :
  Forall Q (trace (m w)) ->
  (forall a w', Forall Q (trace (k a w'))) ->
  Forall Q (trace (bind m k w)).
Proof.
  intros Hm Hk. unfold bind. destruct (res (m w)); simpl; [|done].
  apply Forall_app. split; [done | apply Hk].
Qed.

Lemma Forall_trace_defer {A B : Type} (d : Proc W B) (body : Proc W A) w :
  Forall Q (trace (body w)) ->
  (forall w', Forall Q (trace (d w'))) ->
  Forall Q (trace (defer d body w)).
Proof.
  intros Hm Hk. unfold defer. destruct (res (body w)); simpl; [|done].
  apply Forall_app. split; [done | apply Hk].
Qed.

Lemma Forall_trace_for_range {A : Type} (l : list A) (body : A -> Proc W unit) w :
  (forall x w', Forall Q (trace (body x w'))) ->
  Forall Q (trace (for_range l body w)).
Proof.
  intros Hbody. revert w. induction l as [|x l IH]; intros w; simpl.
  - constructor.
  - apply Forall_trace_bind; [apply Hbody | intros; apply IH].
Qed.

End TraceInvariants.

Lemma filter_none {A : Type} (f : A -> bool) (l : list A) :
  Forall (fun x => f x = false) l -> List.filter f l = [].
Proof.
  induction 1 as [|x l Hx _ IH]; simpl; [done|]. by rewrite Hx.
Qed.

Lemma omap_none {A B : Type} (f : A -> option B) (l : list A) :
  Forall (fun x => f x = None) l -> omap f l = [].
Proof.
  induction 1 as [|x l Hx _ IH]; simpl; [done|]. by rewrite Hx.
Qed.

(** ** The stages of the pipeline, case by case *)

Section Stages.

Context {W : Type} (P : Provider W).

Lemma readEnvVars_run w :
  readEnvVars P w
  = if String.eqb (Getenv P "VCSA_SERVER") EmptyString
       || String.eqb (Getenv P "QA_VCENTER_USERNAME") EmptyString
       || String.eqb (Getenv P "QA_VCENTER_PASSWORD") EmptyString
    then {| trace := [Println env_missing_message]; world := w; res := Exited 1 |}
    else {| trace := []; world := w;
            res := Returned (Getenv P "VCSA_SERVER",
                             Getenv P "QA_VCENTER_USERNAME",
                             Getenv P "QA_VCENTER_PASSWORD") |}.
Proof. unfold readEnvVars. by destruct (_ || _). Qed.

Lemma readEnvVars_returned w env :
  res (readEnvVars P w) = Returned env ->
  readEnvVars P w = {| trace := []; world := w; res := Returned env |}.
Proof.
  rewrite readEnvVars_run. destruct (_ || _); simpl; [done|]. by intros [= <-].
Qed.

Lemma createVSphereClient_run vcURL user pass w :
  createVSphereClient P vcURL user pass w
  = match url_Parse P vcURL with
    | Err err =>
        {| trace := [Printf url_error_format [AErr err]]; world := w;
           res := Exited 1 |}
    | Ok u =>
        let u' := set_User u (UserPassword user pass) in
        match NewClient P u' true w with
        | (Err err, w') =>
            {| trace := [CallNewClient u' true;
                         Printf client_error_format [AErr err]];
               world := w'; res := Exited 1 |}
        | (Ok c, w') =>
            {| trace := [CallNewClient u' true]; world := w'; res := Returned c |}
        end
    end.
Proof.
  unfold createVSphereClient. destruct (url_Parse P vcURL) as [u|err]; [|done].
  simpl. unfold bind, call. simpl.
  by destruct (NewClient P _ true w) as [[c|err] w'].
Qed.

Lemma retrieveVMs_run client w :
  retrieveVMs P client w
  = let create :=
      CallCreateContainerView (RootFolder client) ["VirtualMachine"] true in
    match CreateContainerView P client (RootFolder client) ["VirtualMachine"]
            true w with
    | (Err err, w1) =>
        {| trace := [create; Printf view_error_format [AErr err]];
           world := w1; res := Exited 1 |}
    | (Ok v, w1) =>
        let retrieve := CallRetrieve v ["VirtualMachine"] ["name"] in
        match Retrieve P v ["VirtualMachine"] ["name"] w1 with
        | (Err err, w2) =>
            {| trace := [create; retrieve;
                         Printf retrieve_error_format [AErr err]];
               world := w2; res := Exited 1 |}
        | (Ok vms, w2) =>
            {| trace := [create; retrieve; CallDestroy v];
               world := (Destroy P v w2).2; res := Returned vms |}
        end
    end.
Proof.
  unfold retrieveVMs, bind, defer, call. simpl.
  destruct (CreateContainerView P client _ _ true w) as [[v|err] w1]; [|done].
  simpl. by destruct (Retrieve P v _ _ w1) as [[vms|err] w2].
Qed.

Lemma vm_body_run client counter vm w :
  vm_body P client counter vm w
  = let query := query_of counter vm in
    match Query P client [query] w with
    | (Err err, w') =>
        {| trace := [CallQuery [query];
                     Printf query_error_format [AStr (Name vm); AErr err]];
           world := w'; res := Returned tt |}
    | (Ok metrics, w') =>
        {| trace := CallQuery [query] :: trace (extract vm counter metrics w');
           world := w'; res := Returned tt |}
    end.
Proof.
  unfold vm_body, bind, call. simpl.
  destruct (Query P client _ w) as [[metrics|err] w']; simpl; [|done].
  rewrite extract_res. f_equal.
  by destruct (extract_spec vm counter metrics w') as (-> & _).
Qed.

Lemma vm_body_res client counter vm w :
  res (vm_body P client counter vm w) = Returned tt.
Proof.
  rewrite vm_body_run. simpl.
  by destruct (Query P client _ w) as [[metrics|err] w'].
Qed.

Lemma loop_res client counter vms w :
  res (for_range vms (vm_body P client counter) w) = Returned tt.
Proof. apply for_range_returns. intros. apply vm_body_res. Qed.

Lemma retrieveAndDisplayMetrics_run client vms w :
  retrieveAndDisplayMetrics P client vms w
  = match CounterInfoByName P client w with
    | (Err err, w') =>
        {| trace := [CallCounterInfoByName; Printf catalog_error_format [AErr err]];
           world := w'; res := Exited 1 |}
    | (Ok counterInfo, w') =>
        match counterInfo !! metricName with
        | None =>
            {| trace := [CallCounterInfoByName;
                         Printf metric_missing_format [AStr metricName]];
               world := w'; res := Exited 1 |}
        | Some counter =>
            let r := for_range vms (vm_body P client counter) w' in
            {| trace := CallCounterInfoByName :: trace r; world := world r;
               res := Returned tt |}
        end
    end.
Proof.
  unfold retrieveAndDisplayMetrics, bind, call. simpl.
  destruct (CounterInfoByName P client w) as [[counterInfo|err] w']; simpl; [|done].
  destruct (counterInfo !! metricName) as [counter|]; simpl; [|done].
  by rewrite loop_res.
Qed.

End Stages.

(** ** Which events each stage can produce *)

Ltac trace_forall :=
  repeat first
    [ apply Forall_trace_bind | apply Forall_trace_defer
    | apply Forall_trace_for_range | apply Forall_trace_emit
    | apply Forall_trace_call | apply Forall_trace_ret
    | apply Forall_trace_os_Exit | done | progress intros
    | match goal with
      | |- context [match ?x with _ => _ end] => destruct x
      end ].

Section StageEvents.

Context {W : Type} (P : Provider W).

Lemma readEnvVars_events w : Forall startup_event (trace (readEnvVars P w)).
Proof. unfold readEnvVars. trace_forall. Qed.

Lemma createVSphereClient_events vcURL user pass w :
  Forall startup_event (trace (createVSphereClient P vcURL user pass w)).
Proof. unfold createVSphereClient. trace_forall. Qed.

Lemma retrieveVMs_events client w :
  Forall startup_event (trace (retrieveVMs P client w)).
Proof. unfold retrieveVMs. trace_forall. Qed.

Lemma loop_events client counter vms w :
  Forall loop_event (trace (for_range vms (vm_body P client counter) w)).
Proof.
  unfold vm_body, extract, metric_body, series_body. trace_forall.
Qed.

Lemma startup_no_fetch t :
  Forall startup_event t -> List.filter is_catalog_fetch t = [].
Proof.
  intros H. apply filter_none. eapply Forall_impl; [apply H|].
  by intros [].
Qed.

Lemma startup_no_query t : Forall startup_event t -> queries t = [].
Proof.
  intros H. apply omap_none. eapply Forall_impl; [apply H|].
  by intros [].
Qed.

Lemma loop_no_fetch t : Forall loop_event t -> List.filter is_catalog_fetch t = [].
Proof.
  intros H. apply filter_none. eapply Forall_impl; [apply H|].
  by intros [].
Qed.

Lemma lines_no_query vm t : Forall (vm_line vm) t -> queries t = [].
Proof.
  intros H. apply omap_none. eapply Forall_impl; [apply H|].
  by intros [] [? ?].
Qed.

(** The queries of the loop: one per machine, in inventory order. *)
Lemma loop_queries client counter vms w :
  queries (trace (for_range vms (vm_body P client counter) w))
  = map (fun vm => [query_of counter vm]) vms.
Proof.
  revert w. induction vms as [|vm vms IH]; intros w; [done|].
  cbn [for_range map]. rewrite (bind_returned _ _ _ tt) by apply vm_body_res.
  cbn [trace]. unfold queries in *. rewrite omap_app, IH.
  assert (omap query_specs (trace (vm_body P client counter vm w))
          = [[query_of counter vm]]) as ->; [|done].
  rewrite vm_body_run. cbn zeta.
  destruct (Query P client _ w) as [[metrics|err] w']; cbn; [|done].
  f_equal. apply (lines_no_query vm).
  by destruct (extract_spec vm counter metrics w') as (_ & _ & _ & ?).
Qed.


(** The whole program in terms of its stages. *)
Lemma main_run w vc user pass t1 w1 c t2 w2 o2 :
  res (readEnvVars P w) = Returned (vc, user, pass) ->
  createVSphereClient P (formatVCURL vc) user pass w
  = {| trace := t1; world := w1; res := Returned c |} ->
  retrieveVMs P c w1 = {| trace := t2; world := w2; res := o2 |} ->
  main P w
  = match o2 with
    | Exited code => {| trace := t1 ++ t2; world := w2; res := Exited code |}
    | Returned vms =>
        let r := retrieveAndDisplayMetrics P c vms w2 in
        match res r with
        | Exited code =>
            {| trace := t1 ++ t2 ++ trace r; world := world r; res := Exited code |}
        | Returned _ =>
            {| trace := t1 ++ t2 ++ trace r ++ [CallCancel]; world := world r;
               res := Returned tt |}
        end
    end.
Proof.
  intros Henv Hc Hv. unfold main.
  rewrite (bind_returned _ _ _ _ Henv), (readEnvVars_returned _ _ _ Henv).
  cbn [trace world res app]. unfold defer.
  rewrite (bind_returned _ _ _ c) by by rewrite Hc.
  rewrite Hc. cbn [trace world res].
  destruct o2 as [vms|code].
  - rewrite (bind_returned _ _ _ vms) by by rewrite Hv.
    rewrite Hv. cbn [trace world res].
    destruct (res (retrieveAndDisplayMetrics P c vms w2)) as [[]|code];
      cbn [trace world res emit]; [|done].
    by rewrite <- !app_assoc.
  - rewrite (bind_exited _ _ _ code) by by rewrite Hv.
    by rewrite Hv.
Qed.

End StageEvents.

(** ** The end to end scenario *)

(** One line reports 350 for web-01, one diagnostic names db-01, and the
    process exits with status 0. *)
Example e2e_run :
  stdout (trace (main (scripted e2e) 0%nat))
  = [Printf value_format [AStr "web-01"; AInts [350]];
     Printf query_error_format [AStr "db-01"; AErr "transport error"]]
  /\ exit_status (res (main (scripted e2e) 0%nat)) = 0.
Proof. split; reflexivity. Qed.

(** ** Extraction (P3, P4) *)




(** C6.  A series that is not an integer series is skipped: its iteration
    writes one diagnostic line, surfaces no value, and the loop goes on with
    the next series.  An envelope that is not an entity metric is skipped
    the same way.  Neither ends the run. *)
Theorem non_integer_series_is_skipped {W : Type}
    (vm : VirtualMachine) (counter : PerfCounterInfo)
    (pre post : list BasePerfMetricSeries) (value : BasePerfMetricSeries)
    (before after : list BasePerfEntityMetricBase)
    (base : BasePerfEntityMetricBase) (w : W) :
  is_int_series value = false ->
  is_entity_metric base = false ->
  let series_loop l := for_range l (series_body vm counter) w in
  let r := series_loop (pre ++ value :: post) in
  let r' := extract vm counter (before ++ base :: after) w in
  (trace r
   = trace (series_loop pre)
     ++ [Printf series_mismatch_format [AStr (Name vm)]]
     ++ trace (series_loop post)
   /\ surfaced (trace r)
      = surfaced (trace (series_loop pre)) ++ surfaced (trace (series_loop post))
   /\ res r = Returned tt)
  /\ (trace r'
      = trace (extract vm counter before w)
        ++ [Printf metric_mismatch_format [AStr (Name vm)]]
        ++ trace (extract vm counter after w)
      /\ surfaced (trace r')
         = surfaced (trace (extract vm counter before w))
           ++ surfaced (trace (extract vm counter after w))
      /\ res r' = Returned tt).
Proof.
  intros Hvalue Hbase series_loop r r'. split.
  - subst r series_loop. cbn beta.
    rewrite for_range_split by (intros; apply series_body_res). cbn [trace res].
    destruct (series_loop_spec vm counter pre w) as (-> & _).
    rewrite series_body_run. cbn [trace world].
    destruct value; try done; cbn [int_series_of];
      (split; [done|split; [|done]]); unfold surfaced;
      rewrite !omap_app; cbn [omap list_omap];
      by rewrite surfaced_one_operand.
  - subst r'. unfold extract.
    rewrite for_range_split by (intros; apply metric_body_res). cbn [trace res].
    fold (extract (W:=W) vm counter before). fold (extract (W:=W) vm counter after).
    destruct (extract_spec vm counter before w) as (-> & _).
    destruct base; try done; cbn [metric_body emit trace world];
      (split; [done|split; [|done]]); unfold surfaced;
      rewrite !omap_app; cbn [omap list_omap];
      by rewrite surfaced_one_operand.
Qed.

Lemma non_integer_series_is_skipped_witness :
  trace (for_range ([int_series 6 [350]] ++ csv_series 6 "1,2" :: [int_series 6 [7]])
           (series_body web01 (cpu_counter 6)) 0%nat)
  = [Printf value_format [AStr "web-01"; AInts [350]];
     Printf series_mismatch_format [AStr "web-01"];
     Printf value_format [AStr "web-01"; AInts [7]]].
Proof.
  apply (non_integer_series_is_skipped web01 (cpu_counter 6)
           [int_series 6 [350]] [int_series 6 [7]] (csv_series 6 "1,2")
           [] [] (EntityMetricBasePtr (Self web01)) 0%nat);
    reflexivity.
Defined.

(** ** Per-entity failures (P5) *)

(** C2.  In a run that reaches the per-entity loop, when the query for an
    entity fails the run writes one diagnostic naming that entity right
    after the query, does nothing else for it, and goes on with the
    remaining entities; the run returns from [main], so the process exits
    with status 0, whatever the other queries answer. *)
Theorem query_failure_is_skipped {W : Type} (P : Provider W) (w : W)
    (vc user pass : string) (t1 : list event) (w1 : W) (c : Client)
    (t2 : list event) (w2 : W) (pre : list VirtualMachine)
    (vm : VirtualMachine) (post : list VirtualMachine)
    (catalog : gmap string PerfCounterInfo) (w3 : W)
    (counter : PerfCounterInfo) (err : error) (w4 : W) :
  res (readEnvVars P w) = Returned (vc, user, pass) ->
  createVSphereClient P (formatVCURL vc) user pass w
  = {| trace := t1; world := w1; res := Returned c |} ->
  retrieveVMs P c w1
  = {| trace := t2; world := w2; res := Returned (pre ++ vm :: post) |} ->
  CounterInfoByName P c w2 = (Ok catalog, w3) ->
  catalog !! metricName = Some counter ->
  Query P c [query_of counter vm]
    (world (for_range pre (vm_body P c counter) w3)) = (Err err, w4) ->
  trace (main P w)
  = t1 ++ t2 ++ [CallCounterInfoByName]
    ++ trace (for_range pre (vm_body P c counter) w3)
    ++ [CallQuery [query_of counter vm];
        Printf query_error_format [AStr (Name vm); AErr err]]
    ++ trace (for_range post (vm_body P c counter) w4)
    ++ [CallCancel]
  /\ res (main P w) = Returned tt
  /\ exit_status (res (main P w)) = 0.
Proof.
  intros Henv Hc Hv Hcat Hfound Hquery.
  rewrite (main_run P w _ _ _ _ _ _ _ _ _ Henv Hc Hv).
  rewrite retrieveAndDisplayMetrics_run, Hcat, Hfound. cbn [trace world res].
  rewrite for_range_split by (intros; apply vm_body_res). cbn [trace world res].
  rewrite (vm_body_run P c counter vm). cbn zeta. rewrite Hquery.
  cbn [trace world res].
  repeat split. cbn [app]. by rewrite <- !app_assoc.
Qed.

Lemma query_failure_is_skipped_witness :
  trace (main (scripted e2e) 0%nat)
  = [CallNewClient {| parsed := "https://x/sdk"; User := Some ("x", "x") |} true]
    ++ [CallCreateContainerView (RootFolder demo_client) ["VirtualMachine"] true;
        CallRetrieve demo_view ["VirtualMachine"] ["name"];
        CallDestroy demo_view]
    ++ [CallCounterInfoByName]
    ++ trace (for_range [web01] (vm_body (scripted e2e) demo_client (cpu_counter 6)) 5%nat)
    ++ [CallQuery [query_of (cpu_counter 6) db01];
        Printf query_error_format [AStr "db-01"; AErr "transport error"]]
    ++ trace (for_range [] (vm_body (scripted e2e) demo_client (cpu_counter 6)) 7%nat)
    ++ [CallCancel]
  /\ res (main (scripted e2e) 0%nat) = Returned tt
  /\ exit_status (res (main (scripted e2e) 0%nat)) = 0.
Proof.
  apply (query_failure_is_skipped (scripted e2e) 0%nat "x" "x" "x"
           _ 1%nat demo_client _ 4%nat [web01] db01 []
           {[ metricName := cpu_counter 6 ]} 5%nat (cpu_counter 6)
           "transport error" 7%nat);
    reflexivity.
Defined.


(** ** The whole run *)

Section WholeRun.

Context {W : Type} (P : Provider W).

Lemma main_cases w :
  main P w
  = let r0 := readEnvVars P w in
    match res r0 with
    | Exited code => {| trace := trace r0; world := w; res := Exited code |}
    | Returned (vc, user, pass) =>
        let r1 := createVSphereClient P (formatVCURL vc) user pass w in
        match res r1 with
        | Exited code =>
            {| trace := trace r1; world := world r1; res := Exited code |}
        | Returned c =>
            let r2 := retrieveVMs P c (world r1) in
            match res r2 with
            | Exited code =>
                {| trace := trace r1 ++ trace r2; world := world r2;
                   res := Exited code |}
            | Returned vms =>
                let r3 := retrieveAndDisplayMetrics P c vms (world r2) in
                match res r3 with
                | Exited code =>
                    {| trace := trace r1 ++ trace r2 ++ trace r3;
                       world := world r3; res := Exited code |}
                | Returned _ =>
                    {| trace := trace r1 ++ trace r2 ++ trace r3 ++ [CallCancel];
                       world := world r3; res := Returned tt |}
                end
            end
        end
    end.
Proof.
  cbn zeta.
  destruct (res (readEnvVars P w)) as [[[vc user] pass]|code] eqn:Henv.
  - destruct (createVSphereClient P (formatVCURL vc) user pass w)
      as [t1 w1 [c|code]] eqn:Hc; cbn [trace world res].
    + destruct (retrieveVMs P c w1) as [t2 w2 o2] eqn:Hv.
      rewrite (main_run P w _ _ _ _ _ _ _ _ _ Henv Hc Hv).
      by destruct o2.
    + unfold main.
      rewrite (bind_returned _ _ _ _ Henv), (readEnvVars_returned _ _ _ Henv).
      cbn [trace world res app]. unfold defer.
      rewrite (bind_exited _ _ _ code) by by rewrite Hc.
      by rewrite Hc.
  - unfold main. rewrite (bind_exited _ _ _ _ Henv). f_equal.
    rewrite readEnvVars_run. by destruct (_ || _).
Qed.



Lemma main_sessions_insecure w : Forall insecure_session (trace (main P w)).
Proof.
  unfold main, readEnvVars, createVSphereClient, retrieveVMs,
    retrieveAndDisplayMetrics, vm_body, extract, metric_body, series_body.
  trace_forall.
Qed.

Lemma insecure_sessions_flags t :
  Forall insecure_session t -> Forall (eq true) (omap insecure_flag t).
Proof.
  induction 1 as [|e t He _ IH]; simpl; [constructor|].
  destruct e; simpl in *; try done. subst. by constructor.
Qed.

End WholeRun.

(** ** Inventory enumeration *)

(** When the inventory is retrieved, the view is destroyed right after the
    retrieval, before the machines are handed to the caller. *)
Lemma retrieveVMs_returns_after_Destroy {W : Type} (P : Provider W)
    (c : Client) (w w1 w2 : W) (v : ContainerView) (vms : list VirtualMachine) :
  CreateContainerView P c (RootFolder c) ["VirtualMachine"] true w = (Ok v, w1) ->
  Retrieve P v ["VirtualMachine"] ["name"] w1 = (Ok vms, w2) ->
  retrieveVMs P c w
  = {| trace := [CallCreateContainerView (RootFolder c) ["VirtualMachine"] true;
                 CallRetrieve v ["VirtualMachine"] ["name"];
                 CallDestroy v];
       world := (Destroy P v w2).2;
       res := Returned vms |}.
Proof. intros Hv Hr. rewrite retrieveVMs_run. cbn zeta. by rewrite Hv, Hr. Qed.

(** When the retrieval fails, the process exits inside [retrieveVMs] and the
    deferred [Destroy] never runs. *)
Lemma retrieveVMs_exit_without_Destroy {W : Type} (P : Provider W)
    (c : Client) (w w1 w2 : W) (v : ContainerView) (err : error) :
  CreateContainerView P c (RootFolder c) ["VirtualMachine"] true w = (Ok v, w1) ->
  Retrieve P v ["VirtualMachine"] ["name"] w1 = (Err err, w2) ->
  retrieveVMs P c w
  = {| trace := [CallCreateContainerView (RootFolder c) ["VirtualMachine"] true;
                 CallRetrieve v ["VirtualMachine"] ["name"];
                 Printf retrieve_error_format [AErr err]];
       world := w2;
       res := Exited 1 |}.
Proof. intros Hv Hr. rewrite retrieveVMs_run. cbn zeta. by rewrite Hv, Hr. Qed.

(** C3, the failing run.  The view is created, the retrieval fails, the
    diagnostic is written and the process exits with status 1; no [Destroy]
    is ever sent for the view. *)
Theorem retrieve_failure_leaves_view_open :
  retrieveVMs (scripted retrieve_fails) demo_client 0%nat
  = {| trace := [CallCreateContainerView (RootFolder demo_client) ["VirtualMachine"] true;
                 CallRetrieve demo_view ["VirtualMachine"] ["name"];
                 Printf retrieve_error_format [AErr "connection reset"]];
       world := 2%nat;
       res := Exited 1 |}
  /\ List.filter is_destroy (trace (main (scripted retrieve_fails) 0%nat)) = [].
Proof. split; reflexivity. Qed.

(** C8.  When the inventory listing fails, the run ends with exit status 1,
    its last event is the diagnostic of the failing step, and neither the
    catalog fetch nor any performance query is ever issued. *)
Theorem inventory_failure_is_fatal {W : Type} (P : Provider W) (w : W)
    (vc user pass : string) (t1 : list event) (w1 : W) (c : Client)
    (t2 : list event) (w2 : W) (code : Z) :
  res (readEnvVars P w) = Returned (vc, user, pass) ->
  createVSphereClient P (formatVCURL vc) user pass w
  = {| trace := t1; world := w1; res := Returned c |} ->
  retrieveVMs P c w1 = {| trace := t2; world := w2; res := Exited code |} ->
  res (main P w) = Exited 1
  /\ exit_status (res (main P w)) <> 0
  /\ List.filter is_catalog_fetch (trace (main P w)) = []
  /\ queries (trace (main P w)) = []
  /\ exists t format err,
       trace (main P w) = t ++ [Printf format [AErr err]]
       /\ (format = view_error_format \/ format = retrieve_error_format).
Proof.
  intros Henv Hc Hv.
  pose proof (createVSphereClient_events P (formatVCURL vc) user pass w) as H1.
  pose proof (retrieveVMs_events P c w1) as H2.
  rewrite Hc in H1. rewrite Hv in H2. cbn [trace] in H1, H2.
  rewrite (main_run P w _ _ _ _ _ _ _ _ _ Henv Hc Hv). cbn [trace res].
  assert (code = 1
          /\ exists t format err,
               t2 = t ++ [Printf format [AErr err]]
               /\ (format = view_error_format \/ format = retrieve_error_format))
    as (-> & t & format & err & -> & Hformat).
  { rewrite retrieveVMs_run in Hv. cbn zeta in Hv.
    destruct (CreateContainerView P c _ _ true w1) as [[v|err] w'].
    - destruct (Retrieve P v _ _ w') as [[vms|err] w'']; [done|].
      injection Hv as <- _ <-. split; [done|].
      exists [CallCreateContainerView (RootFolder c) ["VirtualMachine"] true;
              CallRetrieve v ["VirtualMachine"] ["name"]],
        retrieve_error_format, err. by split; [|right].
    - injection Hv as <- _ <-. split; [done|].
      exists [CallCreateContainerView (RootFolder c) ["VirtualMachine"] true],
        view_error_format, err. by split; [|left]. }
  repeat split; try done.
  - rewrite List.filter_app. by rewrite !startup_no_fetch.
  - unfold queries. rewrite omap_app. fold (queries t1).
    fold (queries (t ++ [Printf format [AErr err]])).
    by rewrite !startup_no_query.
  - exists (t1 ++ t), format, err. by rewrite app_assoc.
Qed.

Lemma inventory_failure_is_fatal_witness :
  res (main (scripted retrieve_fails) 0%nat) = Exited 1
  /\ exit_status (res (main (scripted retrieve_fails) 0%nat)) <> 0
  /\ List.filter is_catalog_fetch (trace (main (scripted retrieve_fails) 0%nat)) = []
  /\ queries (trace (main (scripted retrieve_fails) 0%nat)) = []
  /\ exists t format err,
       trace (main (scripted retrieve_fails) 0%nat) = t ++ [Printf format [AErr err]]
       /\ (format = view_error_format \/ format = retrieve_error_format).
Proof.
  apply (inventory_failure_is_fatal (scripted retrieve_fails) 0%nat "x" "x" "x"
           [CallNewClient {| parsed := "https://x/sdk"; User := Some ("x", "x") |} true]
           1%nat demo_client
           [CallCreateContainerView (RootFolder demo_client) ["VirtualMachine"] true;
            CallRetrieve demo_view ["VirtualMachine"] ["name"];
            Printf retrieve_error_format [AErr "connection reset"]]
           3%nat 1);
    reflexivity.
Defined.

(** ** Counter resolution (P1, P2) *)

(** C4.  When the catalog has no entry for the metric, the metrics stage
    writes the diagnostic naming the metric and exits with status 1: it
    returns no descriptor, and the run issues no performance query. *)
Theorem unknown_metric_is_fatal {W : Type} (P : Provider W) (w : W)
    (vc user pass : string) (t1 : list event) (w1 : W) (c : Client)
    (t2 : list event) (w2 : W) (vms : list VirtualMachine)
    (catalog : gmap string PerfCounterInfo) (w3 : W) :
  res (readEnvVars P w) = Returned (vc, user, pass) ->
  createVSphereClient P (formatVCURL vc) user pass w
  = {| trace := t1; world := w1; res := Returned c |} ->
  retrieveVMs P c w1 = {| trace := t2; world := w2; res := Returned vms |} ->
  CounterInfoByName P c w2 = (Ok catalog, w3) ->
  catalog !! metricName = None ->
  retrieveAndDisplayMetrics P c vms w2
  = {| trace := [CallCounterInfoByName;
                 Printf metric_missing_format [AStr metricName]];
       world := w3;
       res := Exited 1 |}
  /\ main P w
     = {| trace := t1 ++ t2 ++ [CallCounterInfoByName;
                                Printf metric_missing_format [AStr metricName]];
          world := w3;
          res := Exited 1 |}
  /\ exit_status (res (main P w)) <> 0
  /\ queries (trace (main P w)) = [].
Proof.
  intros Henv Hc Hv Hcat Hmissing.
  pose proof (createVSphereClient_events P (formatVCURL vc) user pass w) as H1.
  pose proof (retrieveVMs_events P c w1) as H2.
  rewrite Hc in H1. rewrite Hv in H2. cbn [trace] in H1, H2.
  assert (retrieveAndDisplayMetrics P c vms w2
          = {| trace := [CallCounterInfoByName;
                         Printf metric_missing_format [AStr metricName]];
               world := w3; res := Exited 1 |}) as Hstage.
  { by rewrite retrieveAndDisplayMetrics_run, Hcat, Hmissing. }
  rewrite (main_run P w _ _ _ _ _ _ _ _ _ Henv Hc Hv). cbn zeta.
  rewrite Hstage. cbn [trace world res].
  repeat split; try done.
  unfold queries. rewrite !omap_app. fold (queries t1). fold (queries t2).
  by rewrite (startup_no_query t1), (startup_no_query t2).
Qed.

Lemma unknown_metric_is_fatal_witness :
  exit_status (res (main (scripted metric_unknown) 0%nat)) <> 0
  /\ queries (trace (main (scripted metric_unknown) 0%nat)) = [].
Proof.
  apply (unknown_metric_is_fatal (scripted metric_unknown) 0%nat "x" "x" "x"
           [CallNewClient {| parsed := "https://x/sdk"; User := Some ("x", "x") |} true]
           1%nat demo_client
           [CallCreateContainerView (RootFolder demo_client) ["VirtualMachine"] true;
            CallRetrieve demo_view ["VirtualMachine"] ["name"];
            CallDestroy demo_view]
           4%nat [web01; db01] ∅ 5%nat);
    reflexivity.
Defined.


(** ** The query specification *)

(** C7.  In a run that resolves the counter, the queries submitted are, in
    inventory order, one call per entity, each with the single specification
    for that entity's reference and the resolved counter id, interval 20 and
    at most 1 sample. *)
Theorem query_spec_per_entity {W : Type} (P : Provider W) (c : Client)
    (vms : list VirtualMachine) (w : W)
    (catalog : gmap string PerfCounterInfo) (w' : W)
    (counter : PerfCounterInfo) :
  CounterInfoByName P c w = (Ok catalog, w') ->
  catalog !! metricName = Some counter ->
  queries (trace (retrieveAndDisplayMetrics P c vms w))
  = map (fun vm =>
           [ {| q_Entity := Reference vm;
                StartTime := None;
                EndTime := None;
                MaxSample := 1;
                MetricId := [ {| CounterId := Key counter; Instance := EmptyString |} ];
                IntervalId := 20;
                Format := EmptyString |} ])
      vms.
Proof.
  intros Hcat Hfound.
  rewrite retrieveAndDisplayMetrics_run, Hcat, Hfound. cbn [trace].
  unfold queries. cbn [omap list_omap query_specs].
  apply loop_queries.
Qed.

Lemma query_spec_per_entity_witness :
  queries (trace (retrieveAndDisplayMetrics (scripted e2e) demo_client [web01; db01] 4%nat))
  = map (fun vm =>
           [ {| q_Entity := Reference vm;
                StartTime := None;
                EndTime := None;
                MaxSample := 1;
                MetricId := [ {| CounterId := Key (cpu_counter 6); Instance := EmptyString |} ];
                IntervalId := 20;
                Format := EmptyString |} ])
      [web01; db01].
Proof.
  apply (query_spec_per_entity (scripted e2e) demo_client [web01; db01] 4%nat
           {[ metricName := cpu_counter 6 ]} 5%nat (cpu_counter 6));
    reflexivity.
Defined.

(** ** Session establishment *)

(** C9.  Whenever [createVSphereClient] reaches the connect call it passes
    the insecure flag [true], whatever its arguments; and in every run of
    [main] every session is opened with that flag. *)
Theorem session_skips_certificate_validation {W : Type} (P : Provider W)
    (vcURL user pass : string) (w : W) :
  omap insecure_flag (trace (createVSphereClient P vcURL user pass w))
  = match url_Parse P vcURL with
    | Ok _ => [true]
    | Err _ => []
    end
  /\ Forall (eq true) (omap insecure_flag (trace (main P w))).
Proof.
  split.
  - rewrite createVSphereClient_run.
    destruct (url_Parse P vcURL) as [u|err]; [|done]. cbn zeta.
    by destruct (NewClient P _ true w) as [[c|err] w'].
  - apply insecure_sessions_flags, main_sessions_insecure.
Qed.

(** ** Beyond the claims: the endpoint URL *)

Lemma length_append (a b : string) :
  String.length (a +:+ b) = (String.length a + String.length b)%nat.
Proof. induction a as [|ch a IH]; simpl; [done|]. by rewrite IH. Qed.



Lemma append_inv_tail (a b s : string) : a +:+ s = b +:+ s -> a = b.
Proof.
  revert b. induction a as [|ch a IH]; intros [|ch' b] H; simpl in H.
  - done.
  - apply (f_equal String.length) in H.
    rewrite ?length_append in H. simpl in H. rewrite ?length_append in H. lia.
  - apply (f_equal String.length) in H.
    rewrite ?length_append in H. simpl in H. rewrite ?length_append in H. lia.
  - injection H as -> H. f_equal. by apply IH.
Qed.


(** X2.  Two hosts with the same URL are the same host. *)
Theorem formatVCURL_injective (vc1 vc2 : string) :
  formatVCURL vc1 = formatVCURL vc2 -> vc1 = vc2.
Proof.
  unfold formatVCURL. intros H. simpl in H.
  injection H as H. apply (append_inv_tail vc1 vc2 "/sdk"). exact H.
Qed.

Lemma formatVCURL_injective_witness : "vcsa.lab" = "vcsa.lab".
Proof. apply (formatVCURL_injective "vcsa.lab" "vcsa.lab"). reflexivity. Defined.

(** ** Beyond the claims: what each stage touches *)

(** X9.  Each stage only uses its own part of the endpoint: reading the
    environment writes at most the usage message; connecting only opens a
    session; listing the inventory only creates, reads and destroys a view;
    the metrics stage only fetches the catalog and queries.  No stage
    cancels the context. *)
Theorem stages_keep_to_their_calls {W : Type} (P : Provider W)
    (vcURL user pass : string) (c : Client) (vms : list VirtualMachine) (w : W) :
  Forall env_event (trace (readEnvVars P w))
  /\ Forall session_event (trace (createVSphereClient P vcURL user pass w))
  /\ Forall inventory_event (trace (retrieveVMs P c w))
  /\ Forall performance_event (trace (retrieveAndDisplayMetrics P c vms w)).
Proof.
  repeat split.
  - unfold readEnvVars. trace_forall.
  - unfold createVSphereClient. trace_forall.
  - unfold retrieveVMs. trace_forall.
  - unfold retrieveAndDisplayMetrics, vm_body, extract, metric_body, series_body.
    trace_forall.
Qed.

Section Counting.

Context {W : Type} (P : Provider W).

Lemma occurrences_app f t1 t2 :
  occurrences f (t1 ++ t2) = (occurrences f t1 + occurrences f t2)%nat.
Proof. unfold occurrences. by rewrite List.filter_app, length_app. Qed.

Lemma occurrences_none (Q : event -> Prop) f t :
  (forall e, Q e -> f e = false) -> Forall Q t -> occurrences f t = 0%nat.
Proof.
  intros HQ Ht. unfold occurrences. rewrite filter_none; [done|].
  eapply Forall_impl; [apply Ht | apply HQ].
Qed.

Lemma readEnvVars_stage_events w : Forall env_event (trace (readEnvVars P w)).
Proof. unfold readEnvVars. trace_forall. Qed.

Lemma createVSphereClient_stage_events vcURL user pass w :
  Forall session_event (trace (createVSphereClient P vcURL user pass w)).
Proof. unfold createVSphereClient. trace_forall. Qed.

Lemma retrieveVMs_stage_events c w :
  Forall inventory_event (trace (retrieveVMs P c w)).
Proof. unfold retrieveVMs. trace_forall. Qed.

Lemma metrics_stage_events c vms w :
  Forall performance_event (trace (retrieveAndDisplayMetrics P c vms w)).
Proof.
  unfold retrieveAndDisplayMetrics, vm_body, extract, metric_body, series_body.
  trace_forall.
Qed.

(** Occurrences in a whole run, from the occurrences in its stages. *)
Lemma main_occurrences (f : event -> bool) (a b d : nat) w :
  f CallCancel = false ->
  (forall s, f (Println s) = false) ->
  (forall vcURL user pass w',
     (occurrences f (trace (createVSphereClient P vcURL user pass w')) <= a)%nat) ->
  (forall c w', (occurrences f (trace (retrieveVMs P c w')) <= b)%nat) ->
  (forall c vms w',
     (occurrences f (trace (retrieveAndDisplayMetrics P c vms w')) <= d)%nat) ->
  (occurrences f (trace (main P w)) <= a + b + d)%nat.
Proof.
  intros Hcancel Hprint Ha Hb Hd.
  assert (occurrences f (trace (readEnvVars P w)) = 0%nat) as H0.
  { apply (occurrences_none env_event); [|apply readEnvVars_stage_events].
    by intros []. }
  rewrite main_cases. cbn zeta.
  destruct (res (readEnvVars P w)) as [[[vc user] pass]|code]; cbn [trace].
  2: { rewrite H0. lia. }
  specialize (Ha (formatVCURL vc) user pass w).
  destruct (res (createVSphereClient P (formatVCURL vc) user pass w))
    as [c|code]; cbn [trace]; [|lia].
  set (w1 := world (createVSphereClient P (formatVCURL vc) user pass w)).
  specialize (Hb c w1).
  destruct (res (retrieveVMs P c w1)) as [vms|code]; cbn [trace].
  2: { rewrite occurrences_app. lia. }
  set (w2 := world (retrieveVMs P c w1)).
  specialize (Hd c vms w2).
  destruct (res (retrieveAndDisplayMetrics P c vms w2)); cbn [trace];
    rewrite !occurrences_app; [|lia].
  assert (occurrences f [CallCancel] = 0%nat) as ->.
  { unfold occurrences. cbn [List.filter]. by rewrite Hcancel. }
  lia.
Qed.

Lemma createVSphereClient_sessions vcURL user pass w :
  (occurrences is_session_open
     (trace (createVSphereClient P vcURL user pass w)) <= 1)%nat.
Proof.
  unfold occurrences. rewrite createVSphereClient_run.
  destruct (url_Parse P vcURL) as [u|err]; [|simpl; lia]. cbn zeta.
  destruct (NewClient P _ true w) as [[c|err] w']; simpl; lia.
Qed.

Lemma retrieveVMs_view_calls c w :
  (occurrences is_create_view (trace (retrieveVMs P c w)) <= 1)%nat
  /\ (occurrences is_retrieve (trace (retrieveVMs P c w)) <= 1)%nat
  /\ (occurrences is_destroy (trace (retrieveVMs P c w)) <= 1)%nat.
Proof.
  unfold occurrences. rewrite retrieveVMs_run. cbn zeta.
  destruct (CreateContainerView P c _ _ true w) as [[v|err] w1].
  - destruct (Retrieve P v _ _ w1) as [[vms|err] w2]; simpl; lia.
  - simpl; lia.
Qed.

End Counting.

(** X10.  Nothing is retried: in every run the session is opened at most
    once, and a container view is created, read and destroyed at most once
    each, whatever the endpoint answers. *)
Theorem setup_calls_happen_at_most_once {W : Type} (P : Provider W) (w : W) :
  (occurrences is_session_open (trace (main P w)) <= 1)%nat
  /\ (occurrences is_create_view (trace (main P w)) <= 1)%nat
  /\ (occurrences is_retrieve (trace (main P w)) <= 1)%nat
  /\ (occurrences is_destroy (trace (main P w)) <= 1)%nat.
Proof.
  assert (forall f (Q : event -> Prop) t,
            (forall e, Q e -> f e = false) -> Forall Q t ->
            (occurrences f t <= 0)%nat) as Hnone.
  { intros f Q t HQ Ht. by rewrite (occurrences_none Q). }
  repeat split.
  - apply (main_occurrences P is_session_open 1 0 0); try done.
    + apply createVSphereClient_sessions.
    + intros. apply (Hnone _ inventory_event); [by intros []|].
      apply retrieveVMs_stage_events.
    + intros. apply (Hnone _ performance_event); [by intros []|].
      apply metrics_stage_events.
  - apply (main_occurrences P is_create_view 0 1 0); try done.
    + intros. apply (Hnone _ session_event); [by intros []|].
      apply createVSphereClient_stage_events.
    + intros. apply retrieveVMs_view_calls.
    + intros. apply (Hnone _ performance_event); [by intros []|].
      apply metrics_stage_events.
  - apply (main_occurrences P is_retrieve 0 1 0); try done.
    + intros. apply (Hnone _ session_event); [by intros []|].
      apply createVSphereClient_stage_events.
    + intros. apply retrieveVMs_view_calls.
    + intros. apply (Hnone _ performance_event); [by intros []|].
      apply metrics_stage_events.
  - apply (main_occurrences P is_destroy 0 1 0); try done.
    + intros. apply (Hnone _ session_event); [by intros []|].
      apply createVSphereClient_stage_events.
    + intros. apply retrieveVMs_view_calls.
    + intros. apply (Hnone _ performance_event); [by intros []|].
      apply metrics_stage_events.
Qed.

(** ** Beyond the claims: the steps before the inventory *)

(** X3.  When one of the three environment variables is empty or unset, the
    run writes the usage message and exits with status 1 before anything
    else: no session is opened and the endpoint is not touched. *)
Theorem missing_environment_is_fatal {W : Type} (P : Provider W) (w : W) :
  Getenv P "VCSA_SERVER" = EmptyString
  \/ Getenv P "QA_VCENTER_USERNAME" = EmptyString
  \/ Getenv P "QA_VCENTER_PASSWORD" = EmptyString ->
  main P w
  = {| trace := [Println env_missing_message]; world := w; res := Exited 1 |}.
Proof.
  intros Hmissing. rewrite main_cases. cbn zeta. rewrite readEnvVars_run.
  assert (String.eqb (Getenv P "VCSA_SERVER") EmptyString
          || String.eqb (Getenv P "QA_VCENTER_USERNAME") EmptyString
          || String.eqb (Getenv P "QA_VCENTER_PASSWORD") EmptyString = true)
    as ->; [|done].
  rewrite !orb_true_iff, !String.eqb_eq. tauto.
Qed.

Lemma missing_environment_is_fatal_witness :
  main (scripted password_missing) 0%nat
  = {| trace := [Println env_missing_message]; world := 0%nat; res := Exited 1 |}.
Proof.
  apply (missing_environment_is_fatal (scripted password_missing) 0%nat).
  right. right. reflexivity.
Defined.

Lemma inventory_no_session t :
  Forall inventory_event t -> occurrences is_session_open t = 0%nat.
Proof. apply occurrences_none. by intros []. Qed.

Lemma performance_no_session t :
  Forall performance_event t -> occurrences is_session_open t = 0%nat.
Proof. apply occurrences_none. by intros []. Qed.

(** X4.  With the three variables set and a URL that parses, the first thing
    the run does is open one session: on the URL parsed from
    [https://<VCSA_SERVER>/sdk], carrying the user name and password of the
    environment; no other session is opened afterwards. *)
Theorem session_opened_from_environment {W : Type} (P : Provider W) (w : W)
    (u : URL) :
  Getenv P "VCSA_SERVER" <> EmptyString ->
  Getenv P "QA_VCENTER_USERNAME" <> EmptyString ->
  Getenv P "QA_VCENTER_PASSWORD" <> EmptyString ->
  url_Parse P ("https://" +:+ Getenv P "VCSA_SERVER" +:+ "/sdk") = Ok u ->
  exists t,
    trace (main P w)
    = CallNewClient
        {| parsed := parsed u;
           User := Some (Getenv P "QA_VCENTER_USERNAME",
                         Getenv P "QA_VCENTER_PASSWORD") |}
        true :: t
    /\ occurrences is_session_open t = 0%nat.
Proof.
  intros Hvc Huser Hpass Hparse.
  apply String.eqb_neq in Hvc, Huser, Hpass.
  rewrite main_cases. cbn zeta. rewrite readEnvVars_run, Hvc, Huser, Hpass.
  cbn [orb res trace].
  rewrite createVSphereClient_run. unfold formatVCURL. rewrite Hparse. cbn zeta.
  unfold set_User, UserPassword.
  destruct (NewClient P _ true w) as [[c|err] w1]; cbn [trace world res];
    [|by eexists].
  pose proof (retrieveVMs_stage_events P c w1) as H2.
  destruct (res (retrieveVMs P c w1)) as [vms|code]; cbn [trace app].
  - pose proof (metrics_stage_events P c vms (world (retrieveVMs P c w1))) as H3.
    destruct (res (retrieveAndDisplayMetrics P c vms _)); cbn [trace app];
      eexists; (split; [done|]); rewrite ?occurrences_app;
      by rewrite (inventory_no_session _ H2), (performance_no_session _ H3).
  - eexists. split; [done|]. by rewrite (inventory_no_session _ H2).
Qed.

Lemma session_opened_from_environment_witness :
  exists t,
    trace (main (scripted e2e) 0%nat)
    = CallNewClient
        {| parsed := parsed {| parsed := "https://x/sdk"; User := None |};
           User := Some (Getenv (scripted e2e) "QA_VCENTER_USERNAME",
                         Getenv (scripted e2e) "QA_VCENTER_PASSWORD") |}
        true :: t
    /\ occurrences is_session_open t = 0%nat.
Proof.
  apply (session_opened_from_environment (scripted e2e) 0%nat
           {| parsed := "https://x/sdk"; User := None |});
    done.
Defined.

(** X5.  When the session cannot be established (the URL does not parse, or
    the endpoint refuses the client), the run ends there with exit status 1;
    its last event is that step's diagnostic, and no inventory or
    performance call is made. *)
Theorem session_failure_is_fatal {W : Type} (P : Provider W) (w : W)
    (vc user pass : string) (t1 : list event) (w1 : W) (code : Z) :
  res (readEnvVars P w) = Returned (vc, user, pass) ->
  createVSphereClient P (formatVCURL vc) user pass w
  = {| trace := t1; world := w1; res := Exited code |} ->
  main P w = {| trace := t1; world := w1; res := Exited 1 |}
  /\ Forall session_event t1
  /\ exists t format err,
       t1 = t ++ [Printf format [AErr err]]
       /\ (format = url_error_format \/ format = client_error_format).
Proof.
  intros Henv Hc.
  pose proof (createVSphereClient_stage_events P (formatVCURL vc) user pass w) as H1.
  rewrite Hc in H1. cbn [trace] in H1.
  rewrite main_cases. cbn zeta.
  rewrite Henv, Hc. cbn [trace world res].
  assert (code = 1
          /\ exists t format err,
               t1 = t ++ [Printf format [AErr err]]
               /\ (format = url_error_format \/ format = client_error_format))
    as (-> & Hshape); [|done].
  rewrite createVSphereClient_run in Hc.
  destruct (url_Parse P (formatVCURL vc)) as [u|err].
  - cbn zeta in Hc. destruct (NewClient P _ true w) as [[c|err] w']; [done|].
    injection Hc as <- _ <-. split; [done|].
    eexists [_], client_error_format, err. by split; [|right].
  - injection Hc as <- _ <-. split; [done|].
    exists [], url_error_format, err. by split; [|left].
Qed.

Lemma session_failure_is_fatal_witness :
  main (scripted login_fails) 0%nat
  = {| trace := [CallNewClient {| parsed := "https://x/sdk"; User := Some ("x", "x") |} true;
                 Printf client_error_format [AErr "incorrect user name or password"]];
       world := 1%nat;
       res := Exited 1 |}.
Proof.
  apply (session_failure_is_fatal (scripted login_fails) 0%nat "x" "x" "x"
           _ 1%nat 1);
    reflexivity.
Defined.

(** ** Beyond the claims: inventory and catalog *)

(** X6.  When the view is created and the inventory is retrieved, the view
    is destroyed right after the retrieval and before the machines are
    handed to the caller; the machines are exactly those retrieved, and what
    the destroy call answers, an error included, is ignored. *)
Theorem inventory_returned_after_view_destroyed {W : Type} (P : Provider W)
    (c : Client) (w w1 w2 w3 : W) (v : ContainerView)
    (vms : list VirtualMachine) (answer : option error) :
  CreateContainerView P c (RootFolder c) ["VirtualMachine"] true w = (Ok v, w1) ->
  Retrieve P v ["VirtualMachine"] ["name"] w1 = (Ok vms, w2) ->
  Destroy P v w2 = (answer, w3) ->
  retrieveVMs P c w
  = {| trace := [CallCreateContainerView (RootFolder c) ["VirtualMachine"] true;
                 CallRetrieve v ["VirtualMachine"] ["name"];
                 CallDestroy v];
       world := w3;
       res := Returned vms |}.
Proof.
  intros Hv Hr Hd. rewrite retrieveVMs_run. cbn zeta. by rewrite Hv, Hr, Hd.
Qed.

Lemma inventory_returned_after_view_destroyed_witness :
  retrieveVMs (scripted e2e) demo_client 1%nat
  = {| trace := [CallCreateContainerView (RootFolder demo_client) ["VirtualMachine"] true;
                 CallRetrieve demo_view ["VirtualMachine"] ["name"];
                 CallDestroy demo_view];
       world := 4%nat;
       res := Returned [web01; db01] |}.
Proof.
  apply (inventory_returned_after_view_destroyed (scripted e2e) demo_client
           1%nat 2%nat 3%nat 4%nat demo_view [web01; db01] None);
    reflexivity.
Defined.

(** X7.  When the counter catalog cannot be fetched, the run writes the
    diagnostic with the cause and exits with status 1; no name is looked up
    and no performance query is issued. *)
Theorem catalog_fetch_failure_is_fatal {W : Type} (P : Provider W) (w : W)
    (vc user pass : string) (t1 : list event) (w1 : W) (c : Client)
    (t2 : list event) (w2 : W) (vms : list VirtualMachine)
    (err : error) (w3 : W) :
  res (readEnvVars P w) = Returned (vc, user, pass) ->
  createVSphereClient P (formatVCURL vc) user pass w
  = {| trace := t1; world := w1; res := Returned c |} ->
  retrieveVMs P c w1 = {| trace := t2; world := w2; res := Returned vms |} ->
  CounterInfoByName P c w2 = (Err err, w3) ->
  main P w
  = {| trace := t1 ++ t2 ++ [CallCounterInfoByName;
                             Printf catalog_error_format [AErr err]];
       world := w3;
       res := Exited 1 |}
  /\ queries (trace (main P w)) = [].
Proof.
  intros Henv Hc Hv Hcat.
  pose proof (createVSphereClient_events P (formatVCURL vc) user pass w) as H1.
  pose proof (retrieveVMs_events P c w1) as H2.
  rewrite Hc in H1. rewrite Hv in H2. cbn [trace] in H1, H2.
  rewrite (main_run P w _ _ _ _ _ _ _ _ _ Henv Hc Hv). cbn zeta.
  rewrite retrieveAndDisplayMetrics_run, Hcat. cbn [trace world res].
  split; [done|].
  unfold queries. rewrite !omap_app. fold (queries t1). fold (queries t2).
  by rewrite (startup_no_query t1), (startup_no_query t2).
Qed.

Lemma catalog_fetch_failure_is_fatal_witness :
  res (main (scripted catalog_fails) 0%nat) = Exited 1
  /\ queries (trace (main (scripted catalog_fails) 0%nat)) = [].
Proof.
  destruct (catalog_fetch_failure_is_fatal (scripted catalog_fails) 0%nat
              "x" "x" "x"
              [CallNewClient {| parsed := "https://x/sdk"; User := Some ("x", "x") |} true]
              1%nat demo_client
              [CallCreateContainerView (RootFolder demo_client) ["VirtualMachine"] true;
               CallRetrieve demo_view ["VirtualMachine"] ["name"];
               CallDestroy demo_view]
              4%nat [web01; db01] "permission denied" 5%nat)
    as [Hrun Hqueries]; try reflexivity.
  split; [by rewrite Hrun | exact Hqueries].
Defined.

(** X8.  A run that resolves the counter always returns from [main]: it
    exits with status 0 whatever the queries answer, it has fetched the
    catalog once, and it has queried every machine of the inventory exactly
    once, in inventory order, also after failed queries. *)
Theorem resolved_run_queries_every_machine {W : Type} (P : Provider W) (w : W)
    (vc user pass : string) (t1 : list event) (w1 : W) (c : Client)
    (t2 : list event) (w2 : W) (vms : list VirtualMachine)
    (catalog : gmap string PerfCounterInfo) (w3 : W)
    (counter : PerfCounterInfo) :
  res (readEnvVars P w) = Returned (vc, user, pass) ->
  createVSphereClient P (formatVCURL vc) user pass w
  = {| trace := t1; world := w1; res := Returned c |} ->
  retrieveVMs P c w1 = {| trace := t2; world := w2; res := Returned vms |} ->
  CounterInfoByName P c w2 = (Ok catalog, w3) ->
  catalog !! metricName = Some counter ->
  exit_status (res (main P w)) = 0
  /\ queries (trace (main P w)) = map (fun vm => [query_of counter vm]) vms
  /\ occurrences is_catalog_fetch (trace (main P w)) = 1%nat.
Proof.
  intros Henv Hc Hv Hcat Hfound.
  pose proof (createVSphereClient_events P (formatVCURL vc) user pass w) as H1.
  pose proof (retrieveVMs_events P c w1) as H2.
  rewrite Hc in H1. rewrite Hv in H2. cbn [trace] in H1, H2.
  rewrite (main_run P w _ _ _ _ _ _ _ _ _ Henv Hc Hv). cbn zeta.
  rewrite retrieveAndDisplayMetrics_run, Hcat, Hfound. cbn [trace world res].
  split; [done|]. split.
  - unfold queries. rewrite !omap_app. fold (queries t1). fold (queries t2).
    rewrite (startup_no_query t1), (startup_no_query t2) by done.
    cbn [omap list_omap query_specs app].
    fold (queries (trace (for_range vms (vm_body P c counter) w3))).
    rewrite loop_queries. apply app_nil_r.
  - unfold occurrences. rewrite !List.filter_app.
    rewrite (startup_no_fetch t1), (startup_no_fetch t2) by done.
    cbn [List.filter is_catalog_fetch app].
    by rewrite (loop_no_fetch _ (loop_events P c counter vms w3)).
Qed.

Lemma resolved_run_queries_every_machine_witness :
  exit_status (res (main (scripted e2e) 0%nat)) = 0
  /\ queries (trace (main (scripted e2e) 0%nat))
     = map (fun vm => [query_of (cpu_counter 6) vm]) [web01; db01]
  /\ occurrences is_catalog_fetch (trace (main (scripted e2e) 0%nat)) = 1%nat.
Proof.
  apply (resolved_run_queries_every_machine (scripted e2e) 0%nat "x" "x" "x"
           [CallNewClient {| parsed := "https://x/sdk"; User := Some ("x", "x") |} true]
           1%nat demo_client
           [CallCreateContainerView (RootFolder demo_client) ["VirtualMachine"] true;
            CallRetrieve demo_view ["VirtualMachine"] ["name"];
            CallDestroy demo_view]
           4%nat [web01; db01] {[ metricName := cpu_counter 6 ]} 5%nat
           (cpu_counter 6));
    reflexivity.
Defined.

(** ** Beyond the claims: the shape of every run *)

Section RunShape.

Context {W : Type} (P : Provider W).





Lemma performance_is_metrics t :
  Forall performance_event t -> Forall metrics_event t.
Proof. intros H. eapply Forall_impl; [apply H|]. by intros []. Qed.

Lemma stage_no_cancel (Q : event -> Prop) t :
  (forall e, Q e -> is_cancel e = false) -> Forall Q t ->
  occurrences is_cancel t = 0%nat.
Proof. apply occurrences_none. Qed.

End RunShape.

(** X11.  In every run the calls that set the run up come before every call
    to the performance manager: the trace splits into a part with no catalog
    fetch and no query, followed by a part with no session, view, retrieval
    or destroy call.  In particular the view is destroyed before the
    catalog is fetched. *)
Theorem setup_precedes_performance_calls {W : Type} (P : Provider W) (w : W) :
  exists t_setup t_metrics,
    trace (main P w) = t_setup ++ t_metrics
    /\ Forall startup_event t_setup
    /\ Forall metrics_event t_metrics.
Proof.
  rewrite main_cases. cbn zeta.
  pose proof (readEnvVars_events P w) as H0.
  destruct (res (readEnvVars P w)) as [[[vc user] pass]|code]; cbn [trace].
  2: { exists (trace (readEnvVars P w)), []. by rewrite app_nil_r. }
  pose proof (createVSphereClient_events P (formatVCURL vc) user pass w) as H1.
  destruct (res (createVSphereClient P (formatVCURL vc) user pass w))
    as [c|code]; cbn [trace].
  2: { eexists _, []. by rewrite app_nil_r. }
  set (w1 := world (createVSphereClient P (formatVCURL vc) user pass w)).
  pose proof (retrieveVMs_events P c w1) as H2.
  destruct (res (retrieveVMs P c w1)) as [vms|code]; cbn [trace].
  2: { eexists _, []. rewrite app_nil_r. split; [done|].
       split; [by apply Forall_app|constructor]. }
  set (w2 := world (retrieveVMs P c w1)).
  pose proof (performance_is_metrics _ (metrics_stage_events P c vms w2)) as H3.
  destruct (res (retrieveAndDisplayMetrics P c vms w2)); cbn [trace].
  - exists (trace (createVSphereClient P (formatVCURL vc) user pass w)
            ++ trace (retrieveVMs P c w1)),
      (trace (retrieveAndDisplayMetrics P c vms w2) ++ [CallCancel]).
    rewrite <- app_assoc. split; [done|].
    split; apply Forall_app; split; try done. by apply Forall_singleton.
  - exists (trace (createVSphereClient P (formatVCURL vc) user pass w)
            ++ trace (retrieveVMs P c w1)),
      (trace (retrieveAndDisplayMetrics P c vms w2)).
    rewrite <- app_assoc. split; [done|]. split; [by apply Forall_app|done].
Qed.


(** X13.  The deferred cancel of the run's context runs exactly when [main]
    returns, as the last event of the run; on every fatal exit it does not
    run at all. *)
Theorem cancel_runs_only_on_return {W : Type} (P : Provider W) (w : W) :
  match res (main P w) with
  | Returned _ =>
      exists t, trace (main P w) = t ++ [CallCancel]
                /\ occurrences is_cancel t = 0%nat
  | Exited _ => occurrences is_cancel (trace (main P w)) = 0%nat
  end.
Proof.
  assert (forall t, Forall env_event t -> occurrences is_cancel t = 0%nat) as Henv.
  { intros t. apply stage_no_cancel. by intros []. }
  assert (forall t, Forall session_event t -> occurrences is_cancel t = 0%nat) as Hses.
  { intros t. apply stage_no_cancel. by intros []. }
  assert (forall t, Forall inventory_event t -> occurrences is_cancel t = 0%nat) as Hinv.
  { intros t. apply stage_no_cancel. by intros []. }
  assert (forall t, Forall performance_event t -> occurrences is_cancel t = 0%nat) as Hperf.
  { intros t. apply stage_no_cancel. by intros []. }
  rewrite main_cases. cbn zeta.
  pose proof (readEnvVars_stage_events P w) as H0.
  destruct (res (readEnvVars P w)) as [[[vc user] pass]|code]; cbn [trace res].
  2: { by apply Henv. }
  pose proof (createVSphereClient_stage_events P (formatVCURL vc) user pass w) as H1.
  destruct (res (createVSphereClient P (formatVCURL vc) user pass w))
    as [c|code]; cbn [trace res].
  2: { by apply Hses. }
  set (w1 := world (createVSphereClient P (formatVCURL vc) user pass w)).
  pose proof (retrieveVMs_stage_events P c w1) as H2.
  destruct (res (retrieveVMs P c w1)) as [vms|code]; cbn [trace res].
  2: { rewrite occurrences_app, Hses, Hinv; done. }
  set (w2 := world (retrieveVMs P c w1)).
  pose proof (metrics_stage_events P c vms w2) as H3.
  destruct (res (retrieveAndDisplayMetrics P c vms w2)); cbn [trace res].
  - eexists. rewrite !app_assoc. split; [done|].
    rewrite !occurrences_app, Hses, Hinv, Hperf; done.
  - rewrite !occurrences_app, Hses, Hinv, Hperf; done.
Qed.
